(** * mizbancloud/cli: the REST request pipeline and its JSON adapters

    A shallow embedding of the client core of the command-line agent:
    - [Strconv], [Utf8], [Json]: the parts of Go's strconv, unicode/utf8 and
      encoding/json that the client calls (byte-level scanner, decoding into
      typed targets, encoding);
    - [Types]: pkg/types (NumericBool, FlexibleString);
    - [Config]: pkg/config (the process-wide configuration and its file);
    - [Api]: pkg/api (Client.request and its verb helpers);
    - [Cdn]: the rate-limit commands of pkg/cli/cdn;
    - [Auth]: the login command of pkg/cli/auth.

    Go strings and byte slices are byte sequences: they are modelled as
    [string] (a list of 8-bit characters). *)

From Stdlib Require Import ZArith Lia Bool Ascii String List.
From stdpp Require Import base option strings gmap sorting pretty.

Local Open Scope string_scope.
Local Open Scope Z_scope.

(** ** Bytes *)

Abbreviation byte := ascii.

Definition code (c : byte) : N := N_of_ascii c.

Definition is_byte (c d : byte) : bool := Ascii.eqb c d.
Arguments is_byte (c d)%_char_scope.

Definition between (lo hi : N) (c : byte) : bool :=
  (N.leb lo (code c) && N.leb (code c) hi)%bool.

Definition is_digit (c : byte) : bool := between 48 57 c.

Fixpoint take (n : nat) (s : string) : string :=
  match n, s with
  | S k, String c r => String c (take k r)
  | _, _ => EmptyString
  end.

Fixpoint skip (n : nat) (s : string) : string :=
  match n, s with
  | S k, String _ r => skip k r
  | _, _ => s
  end.

(** The bytes of [s] that a scan leaving [rest] has read. *)
Definition consumed (s rest : string) : string :=
  take (String.length s - String.length rest) s.

(** JSON texts are written with an apostrophe where the wire has a quotation
    mark; [js] puts the quotation marks back. *)
Definition dquote : byte := ascii_of_N 34.
Definition backslash : byte := ascii_of_N 92.

Fixpoint js (s : string) : string :=
  match s with
  | EmptyString => EmptyString
  | String c r => String (if is_byte c "'" then dquote else c) (js r)
  end.

(** Results of fallible Go calls: [(value, nil)] or [(_, err)]. *)
Inductive result (E A : Type) : Type :=
| Ok (a : A)
| Err (e : E).
Arguments Ok {E A} a.
Arguments Err {E A} e.

Definition bind {E A B} (r : result E A) (k : A -> result E B) : result E B :=
  match r with
  | Ok a => k a
  | Err e => Err e
  end.

Notation "'let*' x ':=' r 'in' k" := (bind r (fun x => k))
  (at level 10, x name, r at level 100, k at level 200).

Definition is_ok {E A} (r : result E A) : bool :=
  match r with Ok _ => true | Err _ => false end.

(** ** strconv *)

Module Strconv.

(** strconv.ParseBool: the twelve accepted spellings; anything else is a
    syntax error (and the value returned with it is false). *)
Definition ParseBool (s : string) : result unit bool :=
  if (String.eqb s "1" || String.eqb s "t" || String.eqb s "T"
      || String.eqb s "TRUE" || String.eqb s "true" || String.eqb s "True")%bool
  then Ok true
  else if (String.eqb s "0" || String.eqb s "f" || String.eqb s "F"
           || String.eqb s "FALSE" || String.eqb s "false" || String.eqb s "False")%bool
  then Ok false
  else Err tt.

Definition digit_value (c : byte) : Z := Z.of_N (code c) - 48.

(** Value of a run of decimal digits, most significant first. *)
Fixpoint digits_value (acc : Z) (s : string) : Z :=
  match s with
  | EmptyString => acc
  | String c r => digits_value (10 * acc + digit_value c) r
  end.

Fixpoint all_digits (s : string) : bool :=
  match s with
  | EmptyString => true
  | String c r => (is_digit c && all_digits r)%bool
  end.

Fixpoint span_digits (s : string) : string * string :=
  match s with
  | String c r =>
      if is_digit c then let '(d, t) := span_digits r in (String c d, t)
      else (EmptyString, s)
  | EmptyString => (EmptyString, EmptyString)
  end.

(** strconv.ParseInt(s, 10, 64): an optional sign and at least one digit,
    nothing else, and a value that fits in 64 bits. *)
Definition ParseInt (s : string) : result unit Z :=
  let '(neg, ds) :=
    match s with
    | String c r =>
        if is_byte c "-" then (true, r) else if is_byte c "+" then (false, r) else (false, s)
    | EmptyString => (false, s)
    end in
  match ds with
  | EmptyString => Err tt
  | _ =>
      if all_digits ds then
        let v := digits_value 0 ds in
        let v := if neg then - v else v in
        if (Z.leb (- 2 ^ 63) v && Z.ltb v (2 ^ 63))%bool then Ok v else Err tt
      else Err tt
  end.

(** A decimal literal read exactly: [sign * mantissa * 10 ^ exponent]. *)
Record decimal : Type := Decimal {
  negative : bool;
  mantissa : Z;
  exponent : Z
}.

(** Reads a literal of the JSON number grammar (sign, integer part, optional
    fraction, optional exponent). *)
Definition read_decimal (s : string) : decimal :=
  let '(neg, s1) :=
    match s with
    | String c r => if is_byte c "-" then (true, r) else (false, s)
    | EmptyString => (false, s)
    end in
  let '(ip, s2) := span_digits s1 in
  let '(fp, s3) :=
    match s2 with
    | String c r => if is_byte c "." then span_digits r else (EmptyString, s2)
    | EmptyString => (EmptyString, s2)
    end in
  let e :=
    match s3 with
    | String c r =>
        if (is_byte c "e" || is_byte c "E")%bool then
          match r with
          | String d r' =>
              if is_byte d "-" then - digits_value 0 r'
              else if is_byte d "+" then digits_value 0 r'
              else digits_value 0 r
          | EmptyString => 0
          end
        else 0
    | EmptyString => 0
    end in
  Decimal neg (digits_value 0 (ip +:+ fp)) (e - Z.of_nat (String.length fp)).

(** A float64 is kept as the decimal it was rounded from; the client only
    ever compares it with zero. *)
Definition float64 : Type := decimal.

(** [m * 10^e >= 2^1024 - 2^970]: at or beyond the midpoint between the
    largest binary64 and 2^1024, where rounding to nearest (ties to even)
    leaves the finite range. *)
Definition overflows (d : decimal) : bool :=
  let bound := 2 ^ 1024 - 2 ^ 970 in
  if Z.leb 0 (exponent d)
  then Z.leb bound (mantissa d * 10 ^ exponent d)
  else Z.leb (bound * 10 ^ (- exponent d)) (mantissa d).

(** [m * 10^e <= 2^-1075]: at or below the midpoint between zero and the
    smallest subnormal, where rounding to nearest (ties to even) gives zero. *)
Definition rounds_to_zero (d : decimal) : bool :=
  if Z.eqb (mantissa d) 0 then true
  else if Z.leb 0 (exponent d) then false
  else Z.leb (mantissa d * 2 ^ 1075) (10 ^ (- exponent d)).

(** strconv.ParseFloat(s, 64) on a JSON number literal: a range error when
    the value is out of range, the nearest float64 otherwise. *)
Definition ParseFloat (s : string) : result unit float64 :=
  let d := read_decimal s in
  if overflows d then Err tt else Ok d.

(** [v != 0] on a float64 (negative zero equals zero). *)
Definition float64_nonzero (v : float64) : bool := negb (rounds_to_zero v).

End Strconv.

(** ** unicode/utf8 *)

Module Utf8.

Definition continuation (c : byte) : bool := between 128 191 c.

(** utf8.DecodeRune on the head of [s]: the length (1 to 4) of the encoding
    found there, or 0 where DecodeRune answers (RuneError, 1): a byte that
    starts no encoding, a truncated, overlong or surrogate encoding, or a
    value above U+10FFFF. *)
Definition valid_len (s : string) : nat :=
  match s with
  | EmptyString => 0%nat
  | String c0 r =>
      if N.ltb (code c0) 128 then 1%nat
      else
        match r with
        | EmptyString => 0%nat
        | String c1 r1 =>
            if between 194 223 c0 then (if continuation c1 then 2%nat else 0%nat)
            else
              let second_ok :=
                if N.eqb (code c0) 224 then between 160 191 c1
                else if N.eqb (code c0) 237 then between 128 159 c1
                else if between 225 239 c0 then continuation c1
                else if N.eqb (code c0) 240 then between 144 191 c1
                else if between 241 243 c0 then continuation c1
                else if N.eqb (code c0) 244 then between 128 143 c1
                else false in
              if negb second_ok then 0%nat
              else
                match r1 with
                | EmptyString => 0%nat
                | String c2 r2 =>
                    if negb (continuation c2) then 0%nat
                    else if between 224 239 c0 then 3%nat
                    else
                      match r2 with
                      | EmptyString => 0%nat
                      | String c3 _ => if continuation c3 then 4%nat else 0%nat
                      end
                end
        end
  end.

Definition byte_of (n : N) : byte := ascii_of_N n.

(** U+FFFD, the replacement character. *)
Definition replacement : string :=
  String (byte_of 239) (String (byte_of 191) (String (byte_of 189) EmptyString)).

(** utf8.AppendRune: surrogates and values above U+10FFFF are written as
    U+FFFD. *)
Definition encode_rune (r : N) : string :=
  if N.ltb r 128 then String (byte_of r) EmptyString
  else if N.ltb r 2048 then
    String (byte_of (192 + r / 64)) (String (byte_of (128 + r mod 64)) EmptyString)
  else if (N.leb 55296 r && N.leb r 57343)%bool then replacement
  else if N.ltb r 65536 then
    String (byte_of (224 + r / 4096))
      (String (byte_of (128 + (r / 64) mod 64))
         (String (byte_of (128 + r mod 64)) EmptyString))
  else if N.ltb r 1114112 then
    String (byte_of (240 + r / 262144))
      (String (byte_of (128 + (r / 4096) mod 64))
         (String (byte_of (128 + (r / 64) mod 64))
            (String (byte_of (128 + r mod 64)) EmptyString)))
  else replacement.

(** utf8.ValidString. [pending] counts the continuation bytes still owed to
    the encoding being read. *)
Fixpoint valid_from (pending : nat) (s : string) : bool :=
  match s with
  | EmptyString => true
  | String _ r =>
      match pending with
      | S k => valid_from k r
      | O =>
          match valid_len s with
          | O => false
          | S k => valid_from k r
          end
      end
  end.

Definition ValidString (s : string) : bool := valid_from 0 s.

End Utf8.

(** ** encoding/json: syntax *)

Set Warnings "-register-all,-abstract-large-number".

Module Json.

Inductive error : Type :=
| SyntaxError            (* the text is not JSON *)
| UnmarshalTypeError     (* a value does not fit the Go target *)
| UnsupportedValueError  (* a Go value has no JSON form *)
| MarshalerError.        (* a MarshalJSON output is not JSON *)

(** A parsed JSON text. Numbers and strings keep their literal text (a
    string's is the text between its quotation marks, escapes unresolved);
    each member of an object also keeps the bytes of its value as they stood
    in the input, which is what a field implementing json.Unmarshaler is
    handed. *)
Inductive json : Type :=
| JNull
| JBool (b : bool)
| JNumber (lit : string)
| JString (lit : string)
| JArray (elems : list json)
| JObject (members : list (string * string * json)).

Definition is_space (c : byte) : bool :=
  (is_byte c " " || N.eqb (code c) 9 || N.eqb (code c) 13 || N.eqb (code c) 10)%bool.

Fixpoint skip_space (s : string) : string :=
  match s with
  | String c r => if is_space c then skip_space r else s
  | EmptyString => s
  end.

Definition is_hex (c : byte) : bool :=
  (is_digit c || between 97 102 c || between 65 70 c)%bool.

(** The scanner inside a string literal, after the opening quotation mark:
    the literal's text and the input after the closing quotation mark. *)
Fixpoint scan_string (s : string) : option (string * string) :=
  match s with
  | EmptyString => None
  | String c r =>
      if is_byte c dquote then Some (EmptyString, r)
      else if is_byte c backslash then
        match r with
        | String e r1 =>
            if (is_byte e dquote || is_byte e backslash || is_byte e "/" || is_byte e "b"
                || is_byte e "f" || is_byte e "n" || is_byte e "r" || is_byte e "t")%bool
            then
              match scan_string r1 with
              | Some (l, t) => Some (String c (String e l), t)
              | None => None
              end
            else if is_byte e "u" then
              match r1 with
              | String h1 (String h2 (String h3 (String h4 r5))) =>
                  if (is_hex h1 && is_hex h2 && is_hex h3 && is_hex h4)%bool then
                    match scan_string r5 with
                    | Some (l, t) =>
                        Some (String c (String e (String h1 (String h2
                                (String h3 (String h4 l))))), t)
                    | None => None
                    end
                  else None
              | _ => None
              end
            else None
        | EmptyString => None
        end
      else if N.ltb (code c) 32 then None
      else
        match scan_string r with
        | Some (l, t) => Some (String c l, t)
        | None => None
        end
  end.

(** The scanner on a number: an optional minus sign; a zero, or a digit from
    1 to 9 and any digits; optionally a point and one or more digits;
    optionally e or E, an optional sign and one or more digits. *)
Definition scan_exponent (acc s : string) : option (string * string) :=
  match s with
  | String c r =>
      if (is_byte c "e" || is_byte c "E")%bool then
        let '(sign, r1) :=
          match r with
          | String d r' =>
              if (is_byte d "+" || is_byte d "-")%bool
              then (String d EmptyString, r') else (EmptyString, r)
          | EmptyString => (EmptyString, r)
          end in
        match Strconv.span_digits r1 with
        | (EmptyString, _) => None
        | (ds, t) => Some (acc +:+ String c sign +:+ ds, t)
        end
      else Some (acc, s)
  | EmptyString => Some (acc, s)
  end.

Definition scan_fraction (acc s : string) : option (string * string) :=
  match s with
  | String c r =>
      if is_byte c "." then
        match Strconv.span_digits r with
        | (EmptyString, _) => None
        | (ds, t) => scan_exponent (acc +:+ String c ds) t
        end
      else scan_exponent acc s
  | EmptyString => Some (acc, s)
  end.

Definition scan_number (s : string) : option (string * string) :=
  let '(sign, s1) :=
    match s with
    | String c r => if is_byte c "-" then (String c EmptyString, r) else (EmptyString, s)
    | EmptyString => (EmptyString, s)
    end in
  match s1 with
  | String c r =>
      if is_byte c "0" then scan_fraction (sign +:+ String c EmptyString) r
      else if between 49 57 c then
        let '(ds, t) := Strconv.span_digits r in
        scan_fraction (sign +:+ String c ds) t
      else None
  | EmptyString => None
  end.

Fixpoint strip_prefix (p s : string) : option string :=
  match p, s with
  | EmptyString, _ => Some s
  | String a p', String b s' => if is_byte a b then strip_prefix p' s' else None
  | String _ _, EmptyString => None
  end.

(** Containers may nest this deep and no deeper. *)
Definition maxNestingDepth : nat := 10000.

(** The scanner and decoder skeleton as a recursive descent. [depth] is the
    number of containers that may still be opened; [fuel] bounds the
    recursion and is never exhausted when it exceeds the input's length.
    [parse_value] expects its input at the value's first byte. *)
Fixpoint parse_value (fuel depth : nat) (s : string) {struct fuel}
  : option (json * string) :=
  match fuel with
  | O => None
  | S f =>
      match s with
      | EmptyString => None
      | String c r =>
          if is_byte c "{" then
            match depth with
            | O => None
            | S d =>
                match skip_space r with
                | String c1 r1 =>
                    if is_byte c1 "}" then Some (JObject [], r1)
                    else
                      match parse_members f d (String c1 r1) with
                      | Some (ms, t) => Some (JObject ms, t)
                      | None => None
                      end
                | EmptyString => None
                end
            end
          else if is_byte c "[" then
            match depth with
            | O => None
            | S d =>
                match skip_space r with
                | String c1 r1 =>
                    if is_byte c1 "]" then Some (JArray [], r1)
                    else
                      match parse_elements f d (String c1 r1) with
                      | Some (es, t) => Some (JArray es, t)
                      | None => None
                      end
                | EmptyString => None
                end
            end
          else if is_byte c dquote then
            match scan_string r with
            | Some (l, t) => Some (JString l, t)
            | None => None
            end
          else if (is_byte c "-" || is_digit c)%bool then
            match scan_number s with
            | Some (l, t) => Some (JNumber l, t)
            | None => None
            end
          else if is_byte c "t" then
            match strip_prefix "rue" r with
            | Some t => Some (JBool true, t)
            | None => None
            end
          else if is_byte c "f" then
            match strip_prefix "alse" r with
            | Some t => Some (JBool false, t)
            | None => None
            end
          else if is_byte c "n" then
            match strip_prefix "ull" r with
            | Some t => Some (JNull, t)
            | None => None
            end
          else None
      end
  end

with parse_elements (fuel depth : nat) (s : string) {struct fuel}
  : option (list json * string) :=
  match fuel with
  | O => None
  | S f =>
      match parse_value f depth s with
      | Some (v, t) =>
          match skip_space t with
          | String c r =>
              if is_byte c "," then
                match parse_elements f depth (skip_space r) with
                | Some (vs, u) => Some (v :: vs, u)
                | None => None
                end
              else if is_byte c "]" then Some ([v], r)
              else None
          | EmptyString => None
          end
      | None => None
      end
  end

with parse_members (fuel depth : nat) (s : string) {struct fuel}
  : option (list (string * string * json) * string) :=
  match fuel with
  | O => None
  | S f =>
      match s with
      | String q r =>
          if is_byte q dquote then
            match scan_string r with
            | Some (k, t) =>
                match skip_space t with
                | String c r1 =>
                    if is_byte c ":" then
                      let s1 := skip_space r1 in
                      match parse_value f depth s1 with
                      | Some (v, t1) =>
                          let m := (k, consumed s1 t1, v) in
                          match skip_space t1 with
                          | String c2 r2 =>
                              if is_byte c2 "," then
                                match parse_members f depth (skip_space r2) with
                                | Some (ms, u) => Some (m :: ms, u)
                                | None => None
                                end
                              else if is_byte c2 "}" then Some ([m], r2)
                              else None
                          | EmptyString => None
                          end
                      | None => None
                      end
                    else None
                | EmptyString => None
                end
            | None => None
            end
          else None
      | EmptyString => None
      end
  end.

(** A whole JSON text: one value between optional white space. This is the
    validity check json.Unmarshal runs before it decodes anything. *)
Definition parse (data : string) : result error json :=
  match parse_value (S (String.length data)) maxNestingDepth (skip_space data) with
  | Some (v, t) =>
      match skip_space t with
      | EmptyString => Ok v
      | String _ _ => Err SyntaxError
      end
  | None => Err SyntaxError
  end.

(** *** Decoding *)

Definition hex_value (c : byte) : N :=
  if is_digit c then code c - 48
  else if between 97 102 c then code c - 87
  else code c - 55.

Definition hex4 (h1 h2 h3 h4 : byte) : N :=
  ((hex_value h1 * 16 + hex_value h2) * 16 + hex_value h3) * 16 + hex_value h4.

Definition all_hex (h1 h2 h3 h4 : byte) : bool :=
  (is_hex h1 && is_hex h2 && is_hex h3 && is_hex h4)%bool.

Definition is_surrogate (r : N) : bool := (N.leb 55296 r && N.ltb r 57344)%bool.

(** utf16.DecodeRune: a high surrogate followed by a low one. *)
Definition utf16_pair (r1 r2 : N) : option N :=
  if (N.leb 55296 r1 && N.ltb r1 56320 && N.leb 56320 r2 && N.ltb r2 57344)%bool
  then Some ((r1 - 55296) * 1024 + (r2 - 56320) + 65536)%N
  else None.

Definition simple_escape (e : byte) : option byte :=
  if (is_byte e dquote || is_byte e backslash || is_byte e "/" || is_byte e "'")%bool
  then Some e
  else if is_byte e "b" then Some (ascii_of_N 8)
  else if is_byte e "f" then Some (ascii_of_N 12)
  else if is_byte e "n" then Some (ascii_of_N 10)
  else if is_byte e "r" then Some (ascii_of_N 13)
  else if is_byte e "t" then Some (ascii_of_N 9)
  else None.

(** unquote: the Go string a literal stands for. Escapes are resolved, a
    lone surrogate escape and every byte that is not valid UTF-8 become
    U+FFFD. [pending] counts the continuation bytes of the encoding being
    copied. *)
Fixpoint unquote_from (pending : nat) (s : string) : option string :=
  match s with
  | EmptyString => Some EmptyString
  | String c r =>
      match pending with
      | S k => option_map (String c) (unquote_from k r)
      | O =>
          if is_byte c backslash then
            match r with
            | String e r1 =>
                if is_byte e "u" then
                  match r1 with
                  | String h1 (String h2 (String h3 (String h4 r5))) =>
                      if all_hex h1 h2 h3 h4 then
                        let rr := hex4 h1 h2 h3 h4 in
                        if is_surrogate rr then
                          let lone :=
                            option_map (String.append Utf8.replacement)
                              (unquote_from 0 r5) in
                          match r5 with
                          | String b1 (String u1 (String g1 (String g2
                              (String g3 (String g4 r11))))) =>
                              if (is_byte b1 backslash && is_byte u1 "u"
                                  && all_hex g1 g2 g3 g4)%bool then
                                match utf16_pair rr (hex4 g1 g2 g3 g4) with
                                | Some dec =>
                                    option_map (String.append (Utf8.encode_rune dec))
                                      (unquote_from 0 r11)
                                | None => lone
                                end
                              else lone
                          | _ => lone
                          end
                        else
                          option_map (String.append (Utf8.encode_rune rr))
                            (unquote_from 0 r5)
                      else None
                  | _ => None
                  end
                else
                  match simple_escape e with
                  | Some b => option_map (String b) (unquote_from 0 r1)
                  | None => None
                  end
            | EmptyString => None
            end
          else if (is_byte c dquote || N.ltb (code c) 32)%bool then None
          else if N.ltb (code c) 128 then option_map (String c) (unquote_from 0 r)
          else
            match Utf8.valid_len s with
            | O => option_map (String.append Utf8.replacement) (unquote_from 0 r)
            | S k => option_map (String c) (unquote_from k r)
            end
      end
  end.

Definition unquote (lit : string) : result error string :=
  match unquote_from 0 lit with
  | Some s => Ok s
  | None => Err SyntaxError
  end.

(** What json.Unmarshal stores in an empty interface: nil, bool, float64,
    string, []interface{} or map[string]interface{}. *)
Inductive any : Type :=
| ANil
| ABool (b : bool)
| AFloat64 (f : Strconv.float64)
| AString (s : string)
| ASlice (elems : list any)
| AMap (m : gmap string any).

(** A number that does not fit a float64 is a type error; a member written
    twice keeps its last value. *)
Fixpoint to_any (v : json) : result error any :=
  match v with
  | JNull => Ok ANil
  | JBool b => Ok (ABool b)
  | JNumber lit =>
      match Strconv.ParseFloat lit with
      | Ok f => Ok (AFloat64 f)
      | Err _ => Err UnmarshalTypeError
      end
  | JString lit => let* s := unquote lit in Ok (AString s)
  | JArray elems =>
      let* l :=
        (fix each (l : list json) : result error (list any) :=
           match l with
           | [] => Ok []
           | e :: r => let* a := to_any e in let* t := each r in Ok (a :: t)
           end) elems in
      Ok (ASlice l)
  | JObject members =>
      let* m :=
        (fix each (l : list (string * string * json)) (acc : gmap string any)
           : result error (gmap string any) :=
           match l with
           | [] => Ok acc
           | (k, _, e) :: r =>
               let* key := unquote k in
               let* a := to_any e in
               each r (<[key := a]> acc)
           end) members ∅ in
      Ok (AMap m)
  end.

(** [json.Unmarshal(data, &raw)] with [var raw interface{}]. *)
Definition Unmarshal_any (data : string) : result error any :=
  let* v := parse data in to_any v.

(** Decoding into a bool, string, int or []string that holds [old]: null
    leaves a bool, string or int as it is and makes a slice nil; a value of
    another JSON type is a type error. *)
Definition store_bool (old : bool) (v : json) : result error bool :=
  match v with
  | JBool b => Ok b
  | JNull => Ok old
  | _ => Err UnmarshalTypeError
  end.

Definition store_string (old : string) (v : json) : result error string :=
  match v with
  | JString lit => unquote lit
  | JNull => Ok old
  | _ => Err UnmarshalTypeError
  end.

Definition store_int (old : Z) (v : json) : result error Z :=
  match v with
  | JNumber lit =>
      match Strconv.ParseInt lit with
      | Ok n => Ok n
      | Err _ => Err UnmarshalTypeError
      end
  | JNull => Ok old
  | _ => Err UnmarshalTypeError
  end.

(** A []string: [None] is the nil slice. An array is decoded into the slice
    already held, element by element: an element starts from the string held
    at its index, or, past the length held, from what the backing array
    still has there ([spare]: the strings that an earlier, longer array
    wrote and a shorter one cut off), or from the empty string; so a null
    element keeps the string it starts from. What is cut off at the end goes
    to the spare strings. The empty array makes a new empty slice and null
    the nil slice, with nothing spare. *)
Fixpoint store_elements (l : list json) (held spare : list string)
  : result error (list string * list string) :=
  match l with
  | [] => Ok ([], (held ++ spare)%list)
  | e :: r =>
      let '(start, held', spare') :=
        match held with
        | h :: hs => (h, hs, spare)
        | [] =>
            match spare with
            | x :: xs => (x, [], xs)
            | [] => (EmptyString, [], [])
            end
        end in
      let* x := store_string start e in
      let* t := store_elements r held' spare' in
      Ok (x :: t.1, t.2)
  end.

Definition store_strings (old : option (list string)) (spare : list string) (v : json)
  : result error (option (list string) * list string) :=
  match v with
  | JArray [] => Ok (Some [], [])
  | JArray elems =>
      let* t := store_elements elems (default [] old) spare in Ok (Some t.1, t.2)
  | JNull => Ok (None, [])
  | _ => Err UnmarshalTypeError
  end.

(** Member names are matched to field names up to Unicode simple case
    folding. Against an ASCII field name that is ASCII case folding, plus
    U+017F (long s) for s and U+212A (Kelvin sign) for k. *)
Fixpoint fold_name (s : string) : string :=
  match s with
  | EmptyString => EmptyString
  | String c r =>
      if between 65 90 c then String (ascii_of_N (code c + 32)) (fold_name r)
      else
        match s with
        | String c0 (String c1 r2) =>
            if (N.eqb (code c0) 197 && N.eqb (code c1) 191)%bool
            then String "s"%char (fold_name_skip 1 r)
            else
              match r2 with
              | String c2 _ =>
                  if (N.eqb (code c0) 226 && N.eqb (code c1) 132 && N.eqb (code c2) 170)%bool
                  then String "k"%char (fold_name_skip 2 r)
                  else String c (fold_name r)
              | EmptyString => String c (fold_name r)
              end
        | _ => String c (fold_name r)
        end
  end
with fold_name_skip (n : nat) (s : string) : string :=
  match s with
  | EmptyString => EmptyString
  | String _ r =>
      match n with
      | S (S k) => fold_name_skip (S k) r
      | _ => fold_name r
      end
  end.

Definition field_named (name key : string) : bool :=
  String.eqb (fold_name key) (fold_name name).

(** Decoding into a struct that holds [old]. [field s key raw v] stores
    the member [key], whose value is [v] and stands in the input as [raw],
    into [s]. An object is stored member by member in input order; null
    leaves the struct as it is; anything else is a type error. *)
Fixpoint store_members {T : Type}
  (field : T -> string -> string -> json -> result error T)
  (members : list (string * string * json)) (s : T) : result error T :=
  match members with
  | [] => Ok s
  | (k, raw, v) :: r =>
      let* key := unquote k in
      let* s' := field s key raw v in
      store_members field r s'
  end.

Definition store_struct {T : Type}
  (field : T -> string -> string -> json -> result error T)
  (old : T) (v : json) : result error T :=
  match v with
  | JObject members => store_members field members old
  | JNull => Ok old
  | _ => Err UnmarshalTypeError
  end.

(** json.RawMessage: [None] is the nil slice. Its UnmarshalJSON keeps the
    bytes it is handed. *)
Definition RawMessage : Type := option string.

Definition RawMessage_UnmarshalJSON (data : string) : RawMessage := Some data.

(** [json.Unmarshal(data, &str)] with [var str string], and
    [json.Unmarshal(data, &arr)] with [var arr []string]. *)
Definition Unmarshal_string (data : string) : result error string :=
  let* v := parse data in store_string EmptyString v.

Definition Unmarshal_strings (data : string) : result error (option (list string)) :=
  let* v := parse data in let* t := store_strings None [] v in Ok t.1.

(** *** Encoding *)

Definition hex_digit (n : N) : byte :=
  if N.ltb n 10 then ascii_of_N (48 + n) else ascii_of_N (87 + n).

(** The six bytes of a u-escape of a byte. *)
Definition escape_byte (c : byte) : string :=
  String backslash (String "u" (String "0" (String "0"
    (String (hex_digit (code c / 16)) (String (hex_digit (code c mod 16)) EmptyString))))).

(** Bytes written as they are inside a string literal (htmlSafeSet): the
    printable ASCII bytes other than the quotation mark, the backslash and
    the three that json.Marshal escapes for HTML. *)
Definition html_safe (c : byte) : bool :=
  (N.leb 32 (code c) && N.ltb (code c) 128
   && negb (is_byte c dquote) && negb (is_byte c backslash)
   && negb (is_byte c "<") && negb (is_byte c ">") && negb (is_byte c "&"))%bool.

Definition escape_ascii (c : byte) : string :=
  if (is_byte c dquote || is_byte c backslash)%bool then String backslash (String c EmptyString)
  else if N.eqb (code c) 8 then String backslash "b"
  else if N.eqb (code c) 12 then String backslash "f"
  else if N.eqb (code c) 10 then String backslash "n"
  else if N.eqb (code c) 13 then String backslash "r"
  else if N.eqb (code c) 9 then String backslash "t"
  else escape_byte c.

(** U+2028 and U+2029 are the bytes E2 80 A8 and E2 80 A9. *)
Definition line_separator (s : string) : option byte :=
  match s with
  | String c0 (String c1 (String c2 _)) =>
      if (N.eqb (code c0) 226 && N.eqb (code c1) 128
          && (N.eqb (code c2) 168 || N.eqb (code c2) 169))%bool
      then Some c2 else None
  | _ => None
  end.

Definition escape_separator (c2 : byte) : string :=
  String backslash (String "u" (String "2" (String "0" (String "2"
    (String (hex_digit (code c2 mod 16)) EmptyString))))).

(** appendString with escapeHTML set, between the quotation marks. [pending]
    counts the bytes of the current encoding still to pass ([copy] tells
    whether they are written). *)
Fixpoint quote_from (pending : nat) (copy : bool) (s : string) : string :=
  match s with
  | EmptyString => EmptyString
  | String c r =>
      match pending with
      | S k => if copy then String c (quote_from k copy r) else quote_from k copy r
      | O =>
          if N.ltb (code c) 128 then
            if html_safe c then String c (quote_from 0 true r)
            else escape_ascii c +:+ quote_from 0 true r
          else
            match Utf8.valid_len s with
            | O => String backslash "ufffd" +:+ quote_from 0 true r
            | S k =>
                match line_separator s with
                | Some c2 => escape_separator c2 +:+ quote_from k false r
                | None => String c (quote_from k true r)
                end
            end
      end
  end.

Definition quote (s : string) : string :=
  String dquote (quote_from 0 true s +:+ String dquote EmptyString).

Fixpoint join (sep : string) (l : list string) : string :=
  match l with
  | [] => EmptyString
  | [x] => x
  | x :: r => x +:+ sep +:+ join sep r
  end.

(** A JSON text without its insignificant white space. *)
Fixpoint print (v : json) : string :=
  match v with
  | JNull => "null"
  | JBool true => "true"
  | JBool false => "false"
  | JNumber lit => lit
  | JString lit => String dquote (lit +:+ String dquote EmptyString)
  | JArray elems => "[" +:+ join "," (map print elems) +:+ "]"
  | JObject members =>
      "{" +:+ join ","
        (map (fun m : string * string * json =>
                String dquote (m.1.1 +:+ String dquote (":" +:+ print m.2))) members)
      +:+ "}"
  end.

(** The escaping appendCompact adds to a text: the three HTML bytes and
    the two separators, wherever they stand. *)
Fixpoint html_escape (pending : nat) (s : string) : string :=
  match s with
  | EmptyString => EmptyString
  | String c r =>
      match pending with
      | S k => html_escape k r
      | O =>
          if (is_byte c "<" || is_byte c ">" || is_byte c "&")%bool
          then escape_byte c +:+ html_escape 0 r
          else
            match line_separator s with
            | Some c2 => escape_separator c2 +:+ html_escape 2 r
            | None => String c (html_escape 0 r)
            end
      end
  end.

(** appendCompact with escape set: fails on a text that is not JSON. *)
Definition compact (src : string) : result error string :=
  match parse src with
  | Ok v => Ok (html_escape 0 (print v))
  | Err _ => Err MarshalerError
  end.

(** RawMessage.MarshalJSON followed by the encoder's compaction. *)
Definition RawMessage_Marshal (m : RawMessage) : result error string :=
  match m with
  | None => Ok "null"
  | Some raw => compact raw
  end.

(** The Go values the client puts in a request body: the members of a
    map[string]interface{} are bools, ints, strings and []string ([None] is
    the nil slice); [VUnsupported] stands for a value with no JSON form
    (a channel, a function, a NaN). *)
Inductive value : Type :=
| VBool (b : bool)
| VInt (n : Z)
| VString (s : string)
| VStrings (l : option (list string))
| VUnsupported.

Definition Marshal_bool (b : bool) : string := if b then "true" else "false".

Definition Marshal_value (v : value) : result error string :=
  match v with
  | VBool b => Ok (Marshal_bool b)
  | VInt n => Ok (pretty n)
  | VString s => Ok (quote s)
  | VStrings None => Ok "null"
  | VStrings (Some l) => Ok ("[" +:+ join "," (map quote l) +:+ "]")
  | VUnsupported => Err UnsupportedValueError
  end.

Definition key_le (a b : string * value) : Prop := String.leb a.1 b.1 = true.

#[global] Instance key_le_dec a b : Decision (key_le a b).
Proof. unfold key_le. apply _. Defined.

Fixpoint Marshal_members (l : list (string * value)) : result error (list string) :=
  match l with
  | [] => Ok []
  | (k, v) :: r =>
      let* e := Marshal_value v in
      let* t := Marshal_members r in
      Ok ((quote k +:+ ":" +:+ e) :: t)
  end.

(** json.Marshal of a map[string]interface{}: members in the byte order of
    their keys. *)
Definition Marshal_map (m : gmap string value) : result error string :=
  let* l := Marshal_members (merge_sort key_le (map_to_list m)) in
  Ok ("{" +:+ join "," l +:+ "}").

End Json.

(** ** pkg/types *)

Module Types.
Import Json.

(** NumericBool handles boolean values that come as 0/1 or true/false. The
    method has a pointer receiver: it is given the value the receiver
    holds and returns the value it holds afterwards, with the error. The
    [case int] of the source cannot be taken: an empty interface never
    receives an int from json.Unmarshal. *)
Definition NumericBool : Type := bool.

Definition NumericBool_UnmarshalJSON (b : NumericBool) (data : string)
  : NumericBool * option error :=
  match Unmarshal_any data with
  | Err err => (b, Some err)
  | Ok raw =>
      match raw with
      | ABool v => (v, None)
      | AFloat64 v => (Strconv.float64_nonzero v, None)
      | AString v =>
          let parsed := match Strconv.ParseBool v with Ok p => p | Err _ => false end in
          (parsed, None)
      | _ => (false, None)
      end
  end.

Definition NumericBool_MarshalJSON (b : NumericBool) : string := Marshal_bool b.

Definition NumericBool_Bool (b : NumericBool) : bool := b.

(** FlexibleString handles fields that can come as string or array of
    strings; it stores the first value if an array is provided. *)
Definition FlexibleString : Type := string.

Definition FlexibleString_UnmarshalJSON (f : FlexibleString) (data : string)
  : FlexibleString * option error :=
  (* Try as string first *)
  match Unmarshal_string data with
  | Ok str => (str, None)
  | Err _ =>
      (* Try as array of strings *)
      match Unmarshal_strings data with
      | Ok arr =>
          match arr with
          | Some (x :: _) => (x, None)
          | _ => (EmptyString, None)
          end
      | Err _ =>
          (* Default to empty *)
          (EmptyString, None)
      end
  end.

Definition FlexibleString_MarshalJSON (f : FlexibleString) : string := quote f.

Definition FlexibleString_String (f : FlexibleString) : string := f.

End Types.

(** ** The process and its surroundings *)

Module Sys.

(** pkg/config: [type Config struct]. *)
Record Config : Type := mkConfig {
  Token : string;
  BaseURL : string
}.

(** An *http.Request as the client builds it. *)
Record Request : Type := mkRequest {
  Method : string;
  URL : string;
  Header : gmap string (list string);
  Body : option string
}.

(** What [httpClient.Do] followed by [io.ReadAll(resp.Body)] gives. *)
Inductive RoundTrip : Type :=
| DoError (err : string)                          (* Do returned an error *)
| ReadAllError (StatusCode : Z) (err : string)    (* the body could not be read *)
| Received (StatusCode : Z) (body : string).      (* a response, its body read in full *)

(** The libraries and services the process calls and this development does
    not look into. *)
Record Env : Type := mkEnv {
  (* the server and the network: the answer to a request, given the
     requests sent before it *)
  transport : list Request -> Request -> RoundTrip;
  (* net/url: the error of url.Parse on a URL it refuses *)
  url_Parse_error : string -> option string;
  (* gopkg.in/yaml.v3 on a Config: Unmarshal updates the Config it is given *)
  yaml_Unmarshal : string -> Config -> Config * option string;
  yaml_Marshal : Config -> result string string;
  (* os.MkdirAll and os.WriteFile failing *)
  MkdirAll_error : option string;
  WriteFile_error : string -> option string;
  (* the terminal: term.ReadPassword, and the line the fallback reads from
     standard input; strings.TrimSpace *)
  ReadPassword : result string string;
  ReadString : string;
  TrimSpace : string -> string
}.

(** The state a run of the process reads and writes. What the commands
    print is left out. *)
Record World : Type := mkWorld {
  instance : option Config;   (* config.instance; None until once.Do has run *)
  file : option string;       (* the content of config.yaml; None when there is no file *)
  sent : list Request         (* the requests handed to the transport, oldest first *)
}.

(** A computation of the process. *)
Definition M (A : Type) : Type := World -> A * World.

Definition ret {A} (a : A) : M A := fun w => (a, w).

Definition mbind {A B} (m : M A) (k : A -> M B) : M B :=
  fun w => let '(a, w') := m w in k a w'.

Definition get : M World := fun w => (w, w).

Definition set_instance (c : Config) : M unit :=
  fun w => (tt, mkWorld (Some c) (file w) (sent w)).

Definition set_file (data : string) : M unit :=
  fun w => (tt, mkWorld (instance w) (Some data) (sent w)).

Definition log_request (r : Request) : M unit :=
  fun w => (tt, mkWorld (instance w) (file w) (sent w ++ [r])).

Definition run {A} (m : M A) (w : World) : A := (m w).1.
Definition exec {A} (m : M A) (w : World) : World := (m w).2.

End Sys.

Notation "'do' x '<-' m ';' k" := (Sys.mbind m (fun x => k))
  (at level 10, x name, m at level 100, k at level 200).

(** ** pkg/config *)

Module Config.
Import Sys.

Section WithEnv.
Variable env : Env.

(** The only *Config of the process is [instance]: a [*Config] is this
    pointer, and reading or writing through it reads or writes
    [instance]. *)
Definition deref : M Config :=
  do w <- get; ret (default (mkConfig EmptyString EmptyString) (instance w)).

Definition Load : M (option string) :=
  do w <- get;
  do c <- deref;
  match file w with
  | None => ret (Some "open config.yaml: no such file or directory")
  | Some data =>
      let '(c', err) := yaml_Unmarshal env data c in
      do _ <- set_instance c';
      ret err
  end.

(** [once.Do]: the first call builds the instance and loads the file into
    it (the error of Load is dropped); later calls return it as it is. *)
Definition GetConfig : M unit :=
  do w <- get;
  match instance w with
  | Some _ => ret tt
  | None =>
      do _ <- set_instance (mkConfig EmptyString "https://auth.mizbancloud.com/api");
      do _ <- Load;
      ret tt
  end.

Definition Save : M (option string) :=
  do c <- deref;
  match MkdirAll_error env with
  | Some err => ret (Some err)
  | None =>
      match yaml_Marshal env c with
      | Err err => ret (Some err)
      | Ok data =>
          match WriteFile_error env data with
          | Some err => ret (Some err)
          | None => do _ <- set_file data; ret None
          end
      end
  end.

Definition SetToken (token : string) : M (option string) :=
  do c <- deref;
  do _ <- set_instance (mkConfig token (BaseURL c));
  Save.

Definition SetBaseURL (url : string) : M (option string) :=
  do c <- deref;
  do _ <- set_instance (mkConfig (Token c) url);
  Save.

Definition IsLoggedIn : M bool :=
  do c <- deref; ret (negb (String.eqb (Token c) EmptyString)).

Definition Logout : M (option string) :=
  do c <- deref;
  do _ <- set_instance (mkConfig EmptyString (BaseURL c));
  Save.

End WithEnv.

End Config.

(** ** pkg/api *)

Module Api.
Import Sys Json.

Record HttpClient : Type := mkHttpClient {
  Timeout : Z   (* seconds *)
}.

(** [type Client struct]: the field [config] is the pointer to
    [config.instance], so it has no data of its own here. *)
Record Client : Type := mkClient {
  httpClient : HttpClient
}.

Record Response : Type := mkResponse {
  Success : bool;
  Message : string;
  Data : RawMessage
}.

(** Why http.NewRequest refuses to build a request. *)
Inductive NewRequest_error : Type :=
| InvalidMethod (method : string)
| InvalidURL (err : string).

(** The errors [request] makes with fmt.Errorf, by their format string. *)
Inductive error : Type :=
| MarshalingError (cause : Json.error)  (* error marshaling request body: %w *)
| CreatingError (cause : NewRequest_error)  (* error creating request: %w *)
| MakingError (cause : string)          (* error making request: %w *)
| ReadingError (cause : string)         (* error reading response: %w *)
| Unauthorized                          (* unauthorized: please login again using 'mizban login' *)
| RateLimited                           (* rate limited: please wait and try again *)
| ParsingError (cause : Json.error)     (* error parsing response: %w *)
| APIError (message : string)           (* API error: %s *)
| DataError (cause : Json.error).       (* error parsing data: %w *)

(** [err.Error()], given the texts of the causes that libraries word. *)
Definition Error (json_text : Json.error -> string)
  (http_text : NewRequest_error -> string) (e : error) : string :=
  match e with
  | MarshalingError c => "error marshaling request body: " +:+ json_text c
  | CreatingError c => "error creating request: " +:+ http_text c
  | MakingError c => "error making request: " +:+ c
  | ReadingError c => "error reading response: " +:+ c
  | Unauthorized => "unauthorized: please login again using 'mizban login'"
  | RateLimited => "rate limited: please wait and try again"
  | ParsingError c => "error parsing response: " +:+ json_text c
  | APIError m => "API error: " +:+ m
  | DataError c => "error parsing data: " +:+ json_text c
  end.

(** The fields of [Response] by their json tags. *)
Definition Response_field (r : Response) (key raw : string) (v : json)
  : result Json.error Response :=
  if field_named "success" key then
    let* b := store_bool (Success r) v in Ok (mkResponse b (Message r) (Data r))
  else if field_named "message" key then
    let* m := store_string (Message r) v in Ok (mkResponse (Success r) m (Data r))
  else if field_named "data" key then
    Ok (mkResponse (Success r) (Message r) (RawMessage_UnmarshalJSON raw))
  else Ok r.

(** [json.Unmarshal(respBody, &response)] with [var response Response]. *)
Definition Unmarshal_Response (data : string) : result Json.error Response :=
  let* v := parse data in
  store_struct Response_field (mkResponse false EmptyString None) v.

(** [json.Marshal] of a [Response]. *)
Definition Marshal_Response (r : Response) : result Json.error string :=
  let* d := RawMessage_Marshal (Data r) in
  Ok (js "{'success':" +:+ Marshal_bool (Success r)
      +:+ js ",'message':" +:+ quote (Message r)
      +:+ js ",'data':" +:+ d +:+ "}").

(** [req.Header.Set(key, value)]; the keys set below are in canonical form
    already. *)
Definition Header_Set (req : Request) (key value : string) : Request :=
  mkRequest (Method req) (URL req) (<[key := [value]]> (Header req)) (Body req).

(** The bytes of an HTTP token: letters, digits and
    ! # $ % & ' * + - . ^ _ ` | ~ *)
Definition isTokenChar (c : byte) : bool :=
  (between 48 57 c || between 65 90 c || between 97 122 c
   || is_byte c "!" || between 35 39 c || is_byte c "*" || is_byte c "+"
   || is_byte c "-" || is_byte c "." || between 94 96 c || is_byte c "|"
   || is_byte c "~")%bool.

Fixpoint all_token (s : string) : bool :=
  match s with
  | EmptyString => true
  | String c r => (isTokenChar c && all_token r)%bool
  end.

Definition validMethod (method : string) : bool :=
  (negb (String.eqb method EmptyString) && all_token method)%bool.

Section WithEnv.
Variable env : Env.

(** http.NewRequest: an empty method means GET; the method must be a
    token and the URL must parse. The request starts with no header. *)
Definition NewRequest (method url : string) (body : option string)
  : result NewRequest_error Request :=
  let method := if String.eqb method EmptyString then "GET" else method in
  if negb (validMethod method) then Err (InvalidMethod method)
  else
    match url_Parse_error env url with
    | Some err => Err (InvalidURL err)
    | None => Ok (mkRequest method url ∅ body)
    end.

Definition NewClient : M Client :=
  do _ <- Config.GetConfig env;
  ret (mkClient (mkHttpClient 30)).

Definition request (c : Client) (method endpoint : string)
  (body : option (gmap string value)) : M (result error Response) :=
  do cfg <- Config.deref;
  let url := BaseURL cfg +:+ endpoint in
  match
    match body with
    | Some b =>
        match Marshal_map b with
        | Ok jsonBody => Ok (Some jsonBody)
        | Err err => Err err
        end
    | None => Ok None
    end
  with
  | Err err => ret (Err (MarshalingError err))
  | Ok reqBody =>
      match NewRequest method url reqBody with
      | Err err => ret (Err (CreatingError err))
      | Ok req =>
          let req := Header_Set req "Content-Type" "application/json" in
          let req := Header_Set req "Accept" "application/json" in
          let req :=
            if negb (String.eqb (Token cfg) EmptyString)
            then Header_Set req "Authorization" ("Bearer " +:+ Token cfg)
            else req in
          do w <- get;
          do _ <- log_request req;
          match transport env (sent w) req with
          | DoError err => ret (Err (MakingError err))
          | ReadAllError _ err => ret (Err (ReadingError err))
          | Received StatusCode respBody =>
              if Z.eqb StatusCode 401 then ret (Err Unauthorized)
              else if Z.eqb StatusCode 429 then ret (Err RateLimited)
              else
                match Unmarshal_Response respBody with
                | Err err => ret (Err (ParsingError err))
                | Ok response =>
                    if negb (Success response)
                    then ret (Err (APIError (Message response)))
                    else ret (Ok response)
                end
          end
      end
  end.

Definition Get (c : Client) (endpoint : string) : M (result error Response) :=
  request c "GET" endpoint None.

Definition Post (c : Client) (endpoint : string) (body : option (gmap string value))
  : M (result error Response) :=
  request c "POST" endpoint body.

Definition Put (c : Client) (endpoint : string) (body : option (gmap string value))
  : M (result error Response) :=
  request c "PUT" endpoint body.

Definition Delete (c : Client) (endpoint : string) : M (result error Response) :=
  request c "DELETE" endpoint None.

End WithEnv.

(** The bytes of a RawMessage (none for the nil slice). *)
Definition bytes (m : RawMessage) : string := default EmptyString m.

(** [ParseData[T]], given json.Unmarshal at the type T. *)
Definition ParseData {T : Type} (Unmarshal : string -> result Json.error T)
  (resp : Response) : result error T :=
  match Unmarshal (bytes (Data resp)) with
  | Ok result => Ok result
  | Err err => Err (DataError err)
  end.

End Api.

(** ** pkg/cli/cdn: rate limiting *)

Module Cdn.
Import Sys Json.

Record RateLimitSettings : Type := mkRateLimitSettings {
  DomainID : Z;
  Enabled : Types.NumericBool;
  Limit : Z;
  Block : Z;
  AllowMethods : option (list string);
  Whitelist : option (list string);
  AllowCountries : option (list string);
  CreatedAt : string;
  UpdatedAt : string
}.

Definition zero : RateLimitSettings :=
  mkRateLimitSettings 0 false 0 0 None None None EmptyString EmptyString.

(** What the backing arrays of the three slices hold beyond their lengths
    while the settings are being decoded. *)
Record Spare : Type := mkSpare {
  spare_methods : list string;
  spare_whitelist : list string;
  spare_countries : list string
}.

(** The fields of [RateLimitSettings] by their json tags. [Enabled] has its
    own UnmarshalJSON, which is handed the bytes of the value. *)
Definition RateLimitSettings_field (st : RateLimitSettings * Spare) (key raw : string)
  (v : json) : result Json.error (RateLimitSettings * Spare) :=
  let '(mkRateLimitSettings id en li bl me wh co cr up, mkSpare sm sw sc) := st in
  if field_named "domain_id" key then
    let* x := store_int id v in Ok (mkRateLimitSettings x en li bl me wh co cr up, st.2)
  else if field_named "enabled" key then
    match Types.NumericBool_UnmarshalJSON en raw with
    | (x, None) => Ok (mkRateLimitSettings id x li bl me wh co cr up, st.2)
    | (_, Some err) => Err err
    end
  else if field_named "limit" key then
    let* x := store_int li v in Ok (mkRateLimitSettings id en x bl me wh co cr up, st.2)
  else if field_named "block" key then
    let* x := store_int bl v in Ok (mkRateLimitSettings id en li x me wh co cr up, st.2)
  else if field_named "allow_methods" key then
    let* x := store_strings me sm v in
    Ok (mkRateLimitSettings id en li bl x.1 wh co cr up, mkSpare x.2 sw sc)
  else if field_named "whitelist" key then
    let* x := store_strings wh sw v in
    Ok (mkRateLimitSettings id en li bl me x.1 co cr up, mkSpare sm x.2 sc)
  else if field_named "allow_countries" key then
    let* x := store_strings co sc v in
    Ok (mkRateLimitSettings id en li bl me wh x.1 cr up, mkSpare sm sw x.2)
  else if field_named "created_at" key then
    let* x := store_string cr v in Ok (mkRateLimitSettings id en li bl me wh co x up, st.2)
  else if field_named "updated_at" key then
    let* x := store_string up v in Ok (mkRateLimitSettings id en li bl me wh co cr x, st.2)
  else Ok st.

(** [json.Unmarshal(resp.Data, &settings)] with [var settings RateLimitSettings]. *)
Definition Unmarshal_RateLimitSettings (data : string)
  : result Json.error RateLimitSettings :=
  let* v := parse data in
  let* st := store_struct RateLimitSettings_field (zero, mkSpare [] [] []) v in
  Ok st.1.

Inductive error : Type :=
| ApiError (err : Api.error)                (* an error of the client, returned as it is *)
| SettingsError (cause : Json.error).       (* failed to parse settings: %w *)

(** [fmt.Sprintf] of the rate-limit path of a domain. *)
Definition ratelimit_path (domainID : Z) : string :=
  "/v1/cdn/ng/domains/" +:+ pretty domainID +:+ "/ratelimit".

(** The body [newRateLimitDisableCmd] posts. *)
Definition disable_body (settings : RateLimitSettings) : gmap string value :=
  <["mode" := VBool false]>
  (<["request_count" := VInt (Limit settings)]>
  (<["block_time" := VInt (Block settings)]>
  (<["methods" := VStrings (AllowMethods settings)]>
  (<["ips" := VStrings (Whitelist settings)]>
  (<["countries" := VStrings (AllowCountries settings)]> ∅))))).

Section WithEnv.
Variable env : Env.

(** The RunE of [newRateLimitEnableCmd]. *)
Definition RateLimitEnable (domainID requestCount blockTime : Z) : M (option error) :=
  do client <- Api.NewClient env;
  let body : gmap string value :=
    <["mode" := VBool true]>
    (<["request_count" := VInt requestCount]>
    (<["block_time" := VInt blockTime]>
    (<["methods" := VStrings (Some [])]>
    (<["ips" := VStrings (Some [])]>
    (<["countries" := VStrings (Some [])]> ∅))))) in
  do r <- Api.Post env client (ratelimit_path domainID) (Some body);
  match r with
  | Err err => ret (Some (ApiError err))
  | Ok _ => ret None
  end.

(** The RunE of [newRateLimitDisableCmd]. *)
Definition RateLimitDisable (domainID : Z) : M (option error) :=
  do client <- Api.NewClient env;
  (* Get current settings to preserve them *)
  do r <- Api.Get env client (ratelimit_path domainID);
  match r with
  | Err err => ret (Some (ApiError err))
  | Ok resp =>
      match Unmarshal_RateLimitSettings (Api.bytes (Api.Data resp)) with
      | Err err => ret (Some (SettingsError err))
      | Ok settings =>
          do r' <- Api.Post env client (ratelimit_path domainID)
                     (Some (disable_body settings));
          match r' with
          | Err err => ret (Some (ApiError err))
          | Ok _ => ret None
          end
      end
  end.

End WithEnv.

End Cdn.

(** ** pkg/cli/auth: login *)

Module Auth.
Import Sys.

Inductive error : Type :=
| TokenEmpty                      (* token cannot be empty *)
| LoginFailed (err : Api.error)   (* login failed: %w *)
| SaveFailed (err : string).      (* failed to save config: %w *)

Section WithEnv.
Variable env : Env.


(** The RunE of [NewLogoutCmd]. *)
Definition Logout : M (option string) := Config.Logout env.

End WithEnv.

End Auth.

(** * Notions used to state the properties *)

Module Notions.
Import Sys Json Api.

(** [t] is what is left of [s] after some prefix; [x] stands somewhere in [s]. *)
Definition tail_of (t s : string) : Prop := ∃ p, s = p +:+ t.
Definition part_of (x s : string) : Prop := ∃ p q, s = p +:+ x +:+ q.

Definition raws_in (s : string) (ms : list (string * string * json)) : Prop :=
  Forall (fun m => part_of m.1.2 s) ms.

Definition members_of (v : json) : list (string * string * json) :=
  match v with JObject ms => ms | _ => [] end.

(** The bytes of the last of [members] whose name is [name] up to case
    folding; [found] when there is none. *)
Fixpoint last_named (name : string) (members : list (string * string * json))
  (found : option string) : option string :=
  match members with
  | [] => found
  | (k, raw, _) :: r =>
      last_named name r
        match unquote k with
        | Ok key => if field_named name key then Some raw else found
        | Err _ => found
        end
  end.

(** The answer that lets a call of [request] succeed: a status other than
    401 and 429 with a body that decodes as an envelope whose success is
    true. *)
Definition accepted (rt : Sys.RoundTrip) : Prop :=
  ∃ status body resp,
    rt = Sys.Received status body ∧ status ≠ 401 ∧ status ≠ 429
    ∧ Api.Unmarshal_Response body = Ok resp ∧ Api.Success resp = true.

(** What [request] returns once the round trip has given [rt]. *)
Definition triage (rt : RoundTrip) : result error Response :=
  match rt with
  | DoError err => Err (MakingError err)
  | ReadAllError _ err => Err (ReadingError err)
  | Received StatusCode respBody =>
      if Z.eqb StatusCode 401 then Err Unauthorized
      else if Z.eqb StatusCode 429 then Err RateLimited
      else
        match Unmarshal_Response respBody with
        | Err err => Err (ParsingError err)
        | Ok response =>
            if Success response then Ok response else Err (APIError (Message response))
        end
  end.

(** The token of the current configuration. *)
Definition token_of (w : World) : string := Token (run Config.deref w).

(** Running [m] from [w] hands exactly one request, [req], to the
    transport, which answers it with [rt]. *)
Definition round_trip (env : Env) {A} (m : M A) (w : World)
  (req : Request) (rt : RoundTrip) : Prop :=
  sent (exec m w) = (sent w ++ [req])%list ∧ transport env (sent w) req = rt.

Definition authorized (tok : string) (req : Request) : Request :=
  if negb (String.eqb tok EmptyString)
  then Header_Set req "Authorization" ("Bearer " +:+ tok) else req.


(** A byte that a string literal holds as it is: not the quotation mark,
    not the backslash, not a control. *)
Definition plain (c : byte) : bool :=
  (negb (is_byte c dquote) && negb (is_byte c backslash) && negb (N.ltb (code c) 32))%bool.

Fixpoint all_plain (s : string) : bool :=
  match s with
  | EmptyString => true
  | String c r => (plain c && all_plain r)%bool
  end.

Fixpoint all_conts (s : string) : bool :=
  match s with
  | EmptyString => true
  | String c r => (Utf8.continuation c && all_conts r)%bool
  end.

(** [u] does not go on with a number that ends where [u] starts. *)
Definition stops (u : string) : bool :=
  match u with
  | String c _ => negb (is_digit c || is_byte c "." || is_byte c "e" || is_byte c "E")
  | EmptyString => true
  end.




(** Run from a state where [P] holds, [m] returns a value and leaves a
    state that [Q] relates. *)
Definition triple {A} (P : World -> Prop) (m : M A) (Q : A -> World -> Prop) : Prop :=
  ∀ w, P w → Q (run m w) (exec m w).

(** The requests [m] makes when run from [w]. *)
Definition calls {A} (m : M A) (w : World) : list Request :=
  drop (length (sent w)) (sent (exec m w)).

End Notions.

(** * Sample surroundings *)

Module Samples.
Import Sys Json.

(** A server that gives every request the same answer, a file system that
    accepts every write, and a YAML codec that keeps the token only. *)
Definition always (rt : RoundTrip) : Env :=
  mkEnv (fun _ _ => rt) (fun _ => None)
    (fun data c => (mkConfig data (BaseURL c), None)) (fun c => Ok (Token c))
    None (fun _ => None) (Ok "typed") EmptyString (fun s => s).

(** A process whose configuration is loaded, with and without a token. *)
Definition logged_in : World :=
  mkWorld (Some (mkConfig "t0ken" "https://api.test")) (Some "t0ken") [].

Definition logged_out : World :=
  mkWorld (Some (mkConfig EmptyString "https://api.test")) None [].

Definition client : Api.Client := Api.mkClient (Api.mkHttpClient 30).

Definition envelope_ok : string := js "{'success':true,'message':'ok','data':{'id': 42}}".
Definition envelope_failed : string :=
  js "{'success':false,'message':'Domain not found','data':[1,2]}".

(** A server that answers a GET with rate-limit settings and anything else
    with a bare success. *)
Definition settings_envelope : string :=
  js ("{'success':true,'message':'','data':{'domain_id':7,'enabled':1,'limit':100,"
      +:+ "'block':60,'allow_methods':['GET'],'whitelist':[],'allow_countries':null}}").

Definition ratelimit_server : Env :=
  mkEnv
    (fun _ r =>
       if String.eqb (Method r) "GET" then Received 200 settings_envelope
       else Received 200 (js "{'success':true,'message':'ok'}"))
    (fun _ => None)
    (fun data c => (mkConfig data (BaseURL c), None)) (fun c => Ok (Token c))
    None (fun _ => None) (Ok "typed") EmptyString (fun s => s).

End Samples.
(** * Facts about the scanner *)

Module SyntaxFacts.
Import Json Notions.

Create HintDb tails.

#[local] Arguments is_byte : simpl never.
#[local] Arguments between : simpl never.
#[local] Arguments is_digit : simpl never.
#[local] Arguments is_space : simpl never.
#[local] Arguments is_hex : simpl never.
#[local] Arguments code : simpl never.
#[local] Arguments N.ltb : simpl never.

Lemma append_cons c (a b : string) : String c a +:+ b = String c (a +:+ b).
Proof. reflexivity. Qed.

Lemma append_nil_l (b : string) : EmptyString +:+ b = b.
Proof. reflexivity. Qed.

Lemma append_assoc (a b c : string) : (a +:+ b) +:+ c = a +:+ (b +:+ c).
Proof.
  induction a as [|x a IH]; [reflexivity|]. rewrite !append_cons. by rewrite IH.
Qed.

Lemma append_nil_r (a : string) : a +:+ EmptyString = a.
Proof. induction a as [|x a IH]; [reflexivity|]. rewrite append_cons. by rewrite IH. Qed.

Lemma append_length (a b : string) :
  String.length (a +:+ b) = (String.length a + String.length b)%nat.
Proof.
  induction a as [|x a IH]; [reflexivity|]. rewrite append_cons. simpl. by rewrite IH.
Qed.

Lemma take_append (p t : string) : take (String.length p) (p +:+ t) = p.
Proof.
  induction p as [|x p IH]; [by destruct t|]. rewrite append_cons. simpl. by rewrite IH.
Qed.

Lemma consumed_append (p t : string) : consumed (p +:+ t) t = p.
Proof.
  unfold consumed. rewrite append_length.
  replace (String.length p + String.length t - String.length t)%nat
    with (String.length p) by lia.
  apply take_append.
Qed.

Lemma tail_of_refl s : tail_of s s.
Proof. by exists EmptyString. Qed.

Lemma tail_of_trans a b c : tail_of a b → tail_of b c → tail_of a c.
Proof. intros [p ->] [q ->]. exists (q +:+ p). by rewrite append_assoc. Qed.

Lemma tail_of_cons c t s : tail_of t s → tail_of t (String c s).
Proof. intros [p ->]. by exists (String c p). Qed.

Lemma tail_of_step c s : tail_of s (String c s).
Proof. apply tail_of_cons, tail_of_refl. Qed.

Lemma part_of_tail x s1 s : part_of x s1 → tail_of s1 s → part_of x s.
Proof.
  intros (p & q & ->) [r ->]. exists (r +:+ p), q. by rewrite append_assoc.
Qed.

Lemma consumed_part t s : tail_of t s → part_of (consumed s t) s.
Proof.
  intros [p ->]. rewrite consumed_append. by exists EmptyString, t.
Qed.

Lemma skip_space_tail s : tail_of (skip_space s) s.
Proof.
  induction s as [|c s IH]; simpl; [apply tail_of_refl|].
  destruct (is_space c); [by apply tail_of_cons | apply tail_of_refl].
Qed.

#[local] Hint Resolve tail_of_refl tail_of_cons tail_of_step skip_space_tail : tails.

Lemma scan_string_tail s : ∀ l t, scan_string s = Some (l, t) → tail_of t s.
Proof.
  induction s as [s IH] using (well_founded_induction
    (well_founded_ltof _ String.length)).
  intros l t H. destruct s as [|c r]; [done|]. simpl in H.
  repeat case_match; simplify_eq; eauto with tails.
  - apply tail_of_cons, tail_of_cons. eapply IH; [|done]. unfold ltof; simpl; lia.
  - do 6 apply tail_of_cons. eapply IH; [|done]. unfold ltof; simpl; lia.
  - apply tail_of_cons. eapply IH; [|done]. unfold ltof; simpl; lia.
Qed.

Lemma span_digits_append s : ∀ d t, Strconv.span_digits s = (d, t) → s = d +:+ t.
Proof.
  induction s as [|c s IH]; simpl; intros d t H; [by simplify_eq|].
  destruct (is_digit c); [|by simplify_eq].
  destruct (Strconv.span_digits s) as [d' t']. simplify_eq.
  rewrite append_cons. by rewrite <- (IH d' t).
Qed.

Lemma span_digits_tail s d t : Strconv.span_digits s = (d, t) → tail_of t s.
Proof. intros H. exists d. by apply span_digits_append. Qed.

Lemma scan_exponent_tail acc s l t : scan_exponent acc s = Some (l, t) → tail_of t s.
Proof.
  unfold scan_exponent. intros H.
  repeat case_match; simplify_eq; eauto with tails;
    match goal with
    | E : Strconv.span_digits _ = _ |- _ => apply span_digits_tail in E
    end; eauto using tail_of_trans with tails.
Qed.

Lemma scan_fraction_tail acc s l t : scan_fraction acc s = Some (l, t) → tail_of t s.
Proof.
  unfold scan_fraction. intros H.
  repeat case_match; simplify_eq; eauto using scan_exponent_tail with tails.
  match goal with
  | E : Strconv.span_digits _ = _ |- _ => apply span_digits_tail in E
  end.
  apply scan_exponent_tail in H. eauto using tail_of_trans with tails.
Qed.

Lemma scan_number_tail s l t : scan_number s = Some (l, t) → tail_of t s.
Proof.
  unfold scan_number. intros H.
  repeat case_match; simplify_eq;
    repeat match goal with
    | E : Strconv.span_digits _ = _ |- _ => apply span_digits_tail in E
    | E : scan_fraction _ _ = _ |- _ => apply scan_fraction_tail in E
    end; eauto 6 using tail_of_trans with tails.
Qed.

Lemma strip_prefix_tail p : ∀ s t, strip_prefix p s = Some t → tail_of t s.
Proof.
  induction p as [|a p IH]; simpl; intros s t H; [simplify_eq; apply tail_of_refl|].
  destruct s as [|b s]; [done|]. destruct (is_byte a b); [|done].
  apply tail_of_cons. by apply IH.
Qed.

Lemma raws_in_tail s1 s ms : raws_in s1 ms → tail_of s1 s → raws_in s ms.
Proof.
  unfold raws_in. intros H Ht. eapply Forall_impl; [exact H|].
  intros m Hm. simpl in Hm. eapply part_of_tail; eassumption.
Qed.

(** Chains the facts at hand into [tail_of t s]. *)
Ltac solve_tail :=
  solve
    [ apply tail_of_refl
    | eassumption
    | apply skip_space_tail
    | apply tail_of_cons; solve_tail
    | match goal with
      | H : tail_of _ ?s |- tail_of _ ?s =>
          eapply tail_of_trans; [|exact H]; solve_tail
      | H : tail_of _ (skip_space ?s) |- tail_of _ ?s =>
          eapply tail_of_trans; [|apply skip_space_tail];
          eapply tail_of_trans; [|exact H]; solve_tail
      end ].

Ltac note_tails IHv IHe IHm :=
  repeat match goal with
    | E : scan_string _ = Some _ |- _ => apply scan_string_tail in E
    | E : scan_number _ = Some _ |- _ => apply scan_number_tail in E
    | E : strip_prefix _ _ = Some _ |- _ => apply strip_prefix_tail in E
    | E : parse_value _ _ _ = Some _ |- _ => apply IHv in E as [? _]
    | E : parse_elements _ _ _ = Some _ |- _ => apply IHe in E
    | E : parse_members _ _ _ = Some _ |- _ => apply IHm in E as [??]
    | E : skip_space ?r = String _ _ |- _ =>
        let T := fresh in
        pose proof (skip_space_tail r) as T; rewrite E in T; clear E
    end.

Lemma parse_tail fuel :
  (∀ d s v t, parse_value fuel d s = Some (v, t) →
              tail_of t s ∧ raws_in s (members_of v))
  ∧ (∀ d s es t, parse_elements fuel d s = Some (es, t) → tail_of t s)
  ∧ (∀ d s ms t, parse_members fuel d s = Some (ms, t) →
                 tail_of t s ∧ raws_in s ms).
Proof.
  induction fuel as [|f (IHv & IHe & IHm)]; [by repeat split|].
  split; [|split].
  - intros d s v t H. simpl in H.
    repeat case_match; simplify_eq; note_tails IHv IHe IHm; simpl;
      (split; [solve_tail|]); try by constructor.
    eapply raws_in_tail; [eassumption | solve_tail].
  - intros d s es t H. simpl in H.
    repeat case_match; simplify_eq; note_tails IHv IHe IHm; solve_tail.
  - intros d s ms t H. simpl in H.
    repeat case_match; simplify_eq; note_tails IHv IHe IHm.
    + split; [solve_tail|]. constructor; simpl.
      * eapply part_of_tail; [by apply consumed_part | solve_tail].
      * eapply raws_in_tail; [eassumption | solve_tail].
    + split; [solve_tail|]. constructor; [|constructor]. simpl.
      eapply part_of_tail; [by apply consumed_part | solve_tail].
Qed.
End SyntaxFacts.

(** * Facts about the client *)

Module ApiFacts.
Import Sys Json Api Notions SyntaxFacts.

Lemma request_cases env c method endpoint body w :
  (exec (request env c method endpoint body) w = w
   ∧ ∃ e, run (request env c method endpoint body) w = Err e
          ∧ ((∃ x, e = MarshalingError x) ∨ (∃ x, e = CreatingError x)))
  ∨ (∃ req0,
       let req := authorized (token_of w)
                    (Header_Set (Header_Set req0 "Content-Type" "application/json")
                       "Accept" "application/json") in
       Header req0 = ∅
       ∧ exec (request env c method endpoint body) w
         = mkWorld (instance w) (file w) (sent w ++ [req])
       ∧ run (request env c method endpoint body) w = triage (transport env (sent w) req)).
Proof.
  unfold run, exec, request, token_of, authorized, Config.deref, mbind, get, ret, log_request.
  simpl.
  destruct (match body with Some b => _ | None => _ end) as [reqBody|e] eqn:Hb; simpl.
  2:{ left. split; [destruct w; reflexivity|]. eexists; split; [reflexivity|]. left; by eexists. }
  destruct (NewRequest env _ _ reqBody) as [req0|e] eqn:Hn; simpl.
  2:{ left. split; [destruct w; reflexivity|]. eexists; split; [reflexivity|]. right; by eexists. }
  right. exists req0.
  assert (Header req0 = ∅) as Hh.
  { unfold NewRequest in Hn. repeat case_match; by simplify_eq. }
  split; [exact Hh|].
  set (req := if negb _ then _ else _).
  destruct (transport env (sent w) req) as [err|st err|st b]; simpl; try done.
  repeat case_match; simpl; done.
Qed.

Lemma request_round_trip env c method endpoint body w req rt :
  round_trip env (request env c method endpoint body) w req rt →
  run (request env c method endpoint body) w = triage rt
  ∧ ∃ req0, Header req0 = ∅
      ∧ req = authorized (token_of w)
                (Header_Set (Header_Set req0 "Content-Type" "application/json")
                   "Accept" "application/json").
Proof.
  intros [Hs Ht].
  destruct (request_cases env c method endpoint body w)
    as [[Hw _]|(req0 & Hh & Hw & Hr)].
  - rewrite Hw in Hs. apply (f_equal length) in Hs.
    rewrite length_app in Hs. simpl in Hs. lia.
  - rewrite Hw in Hs. simpl in Hs. apply app_inj_tail in Hs as [_ <-].
    rewrite Hr, Ht. eauto.
Qed.

Lemma store_members_data ms : ∀ r r',
  store_members Response_field ms r = Ok r' →
  Data r' = Data r ∨ ∃ m, m ∈ ms ∧ Data r' = Some m.1.2.
Proof.
  induction ms as [|[[k raw] v] ms IH]; intros r r' H; simpl in H.
  - left. by simplify_eq.
  - destruct (unquote k) as [key|] eqn:Hk; simpl in H; [|done].
    destruct (Response_field r key raw v) as [r1|] eqn:Hf; simpl in H; [|done].
    apply IH in H as [H|(m & Hm & H)].
    + unfold Response_field in Hf.
      repeat case_match; simplify_eq;
        try (destruct (store_bool _ _); simplify_eq/=);
        try (destruct (store_string _ _); simplify_eq/=);
        try (left; by rewrite H).
      right. exists (k, raw, v). split; [left|]. by rewrite H.
    + right. exists m. split; [by right | done].
Qed.

Lemma store_members_last ms : ∀ r r',
  store_members Response_field ms r = Ok r' →
  Data r' = last_named "data" ms (Data r).
Proof.
  induction ms as [|[[k raw] v] ms IH]; intros r r' H; simpl in H |- *.
  - by simplify_eq.
  - destruct (unquote k) as [key|] eqn:Hk; simpl in H; [|done].
    destruct (Response_field r key raw v) as [r1|] eqn:Hf; simpl in H; [|done].
    rewrite (IH _ _ H). f_equal. unfold Response_field in Hf.
    destruct (field_named "success" key) eqn:E1.
    { assert (field_named "data" key = false) as ->.
      { unfold field_named in *. apply String.eqb_eq in E1. by rewrite E1. }
      destruct (store_bool _ _); by simplify_eq/=. }
    destruct (field_named "message" key) eqn:E2.
    { assert (field_named "data" key = false) as ->.
      { unfold field_named in *. apply String.eqb_eq in E2. by rewrite E2. }
      destruct (store_string _ _); by simplify_eq/=. }
    destruct (field_named "data" key); by simplify_eq/=.
Qed.

Lemma Unmarshal_Response_object respBody response :
  Unmarshal_Response respBody = Ok response → Success response = true →
  ∃ members, parse respBody = Ok (JObject members)
    ∧ Data response = last_named "data" members None.
Proof.
  unfold Unmarshal_Response. intros H Hs.
  destruct (parse respBody) as [v|] eqn:Hp; [|done]. simpl in H.
  destruct v; simpl in H; simplify_eq/=.
  eexists. split; [done|]. by apply (store_members_last _ _ _ H).
Qed.

Lemma Unmarshal_Response_data respBody response raw :
  Unmarshal_Response respBody = Ok response →
  Data response = Some raw → part_of raw respBody.
Proof.
  unfold Unmarshal_Response, parse. intros H Hd.
  destruct (parse_value _ _ _) as [[v t]|] eqn:Hp; [|done].
  destruct (skip_space t); [|done]. simpl in H.
  apply (proj1 (parse_tail _)) in Hp as [_ Hraws].
  destruct v; simpl in H; simplify_eq/=.
  apply store_members_data in H as [H|(m & Hm & H)]; simpl in H; [congruence|].
  rewrite Hd in H. simplify_eq.
  unfold raws_in in Hraws. rewrite Forall_forall in Hraws.
  eapply part_of_tail; [by apply Hraws | apply skip_space_tail].
Qed.
End ApiFacts.
(** * The client: status triage and the envelope *)

Module ApiProps.
Import Sys Json Api Notions SyntaxFacts ApiFacts.

(** C1. A response with status 401 makes request() fail with the
    unauthorized error, and one with status 429 with the rate-limited
    error, whatever the body is: the status is looked at before the body is
    parsed. *)
Theorem status_precedes_body env c method endpoint body w req status respBody :
  round_trip env (request env c method endpoint body) w req (Received status respBody) →
  status = 401 ∨ status = 429 →
  run (request env c method endpoint body) w
  = Err (if Z.eqb status 401 then Unauthorized else RateLimited).
Proof.
  intros Hrt Hs. apply request_round_trip in Hrt as [-> _].
  by destruct Hs as [-> | ->].
Qed.

Lemma status_precedes_body_witness :
  run (request (Samples.always (Received 401 Samples.envelope_ok)) Samples.client
         "GET" "/v1/auth/profile" None) Samples.logged_in = Err Unauthorized
  ∧ run (request (Samples.always (Received 429 Samples.envelope_ok)) Samples.client
           "GET" "/v1/auth/profile" None) Samples.logged_in = Err RateLimited.
Proof.
  split.
  - eapply (status_precedes_body _ _ _ _ _ _ _ 401 Samples.envelope_ok);
      [split; vm_compute; reflexivity | left; reflexivity].
  - eapply (status_precedes_body _ _ _ _ _ _ _ 429 Samples.envelope_ok);
      [split; vm_compute; reflexivity | right; reflexivity].
Defined.

(** C2. When the status is neither 401 nor 429 and the body parses as an
    envelope whose success is false, request() fails with the API error
    that carries the envelope's message as it is, whatever data holds. *)
Theorem failure_carries_message env c method endpoint body w req status respBody response :
  round_trip env (request env c method endpoint body) w req (Received status respBody) →
  status ≠ 401 → status ≠ 429 →
  Unmarshal_Response respBody = Ok response →
  Success response = false →
  run (request env c method endpoint body) w = Err (APIError (Message response))
  ∧ ∀ json_text http_text,
      Error json_text http_text (APIError (Message response))
      = "API error: " +:+ Message response.
Proof.
  intros Hrt H1 H2 Hu Hs. apply request_round_trip in Hrt as [-> _].
  split; [|done]. simpl.
  apply Z.eqb_neq in H1. apply Z.eqb_neq in H2. by rewrite H1, H2, Hu, Hs.
Qed.

Lemma failure_carries_message_witness :
  run (request (Samples.always (Received 404 Samples.envelope_failed)) Samples.client
         "DELETE" "/v1/cdn/ng/domains/7" None) Samples.logged_in
  = Err (APIError "Domain not found").
Proof.
  edestruct (failure_carries_message
               (Samples.always (Received 404 Samples.envelope_failed)) Samples.client
               "DELETE" "/v1/cdn/ng/domains/7" None Samples.logged_in) as [H _];
    [ split; vm_compute; reflexivity | discriminate | discriminate
    | vm_compute; reflexivity | reflexivity | exact H ].
Defined.

(** C3. When the status is neither 401 nor 429 and the body parses as an
    envelope whose success is true, request() returns that envelope. The
    body is then a JSON object, and the data of the envelope is the bytes of
    the value of its member named data (the last one, when it is written
    more than once; nil when there is none), which is a run of bytes of the
    body, kept as it stood there. *)
Theorem success_returns_envelope env c method endpoint body w req status respBody response :
  round_trip env (request env c method endpoint body) w req (Received status respBody) →
  status ≠ 401 → status ≠ 429 →
  Unmarshal_Response respBody = Ok response →
  Success response = true →
  run (request env c method endpoint body) w = Ok response
  ∧ (∃ members, parse respBody = Ok (JObject members)
       ∧ Data response = last_named "data" members None)
  ∧ ∀ raw, Data response = Some raw → part_of raw respBody.
Proof.
  intros Hrt H1 H2 Hu Hs. apply request_round_trip in Hrt as [-> _].
  split; [|split; [by apply Unmarshal_Response_object
                  |intros raw; by apply Unmarshal_Response_data]]. simpl.
  apply Z.eqb_neq in H1. apply Z.eqb_neq in H2. by rewrite H1, H2, Hu, Hs.
Qed.

Lemma success_returns_envelope_witness :
  run (request (Samples.always (Received 200 Samples.envelope_ok)) Samples.client
         "GET" "/v1/tickets/42" None) Samples.logged_in
  = Ok (mkResponse true "ok" (Some (js "{'id': 42}")))
  ∧ ∃ members, parse Samples.envelope_ok = Ok (JObject members)
      ∧ Some (js "{'id': 42}") = last_named "data" members None.
Proof.
  edestruct (success_returns_envelope
               (Samples.always (Received 200 Samples.envelope_ok)) Samples.client
               "GET" "/v1/tickets/42" None Samples.logged_in) as (H & H' & _);
    [ split; vm_compute; reflexivity | discriminate | discriminate
    | vm_compute; reflexivity | reflexivity | exact (conj H H') ].
Defined.

(** C4. For statuses other than 401 and 429 the result of request() depends
    on the body alone: two responses with the same body give the same
    result whatever their statuses are, and a body that does not parse as
    an envelope gives the parsing error. *)
Theorem status_is_ignored env env' c c' method method' endpoint endpoint' body body'
    w w' req req' status status' respBody :
  round_trip env (request env c method endpoint body) w req (Received status respBody) →
  round_trip env' (request env' c' method' endpoint' body') w' req'
    (Received status' respBody) →
  status ≠ 401 → status ≠ 429 → status' ≠ 401 → status' ≠ 429 →
  run (request env c method endpoint body) w
  = run (request env' c' method' endpoint' body') w'
  ∧ ∀ err, Unmarshal_Response respBody = Err err →
           run (request env c method endpoint body) w = Err (ParsingError err).
Proof.
  intros Hrt Hrt' H1 H2 H1' H2'.
  apply request_round_trip in Hrt as [-> _].
  apply request_round_trip in Hrt' as [-> _]. simpl.
  apply Z.eqb_neq in H1. apply Z.eqb_neq in H2.
  apply Z.eqb_neq in H1'. apply Z.eqb_neq in H2'. rewrite H1, H2, H1', H2'.
  split; [done|]. by intros err ->.
Qed.

Lemma status_is_ignored_witness :
  run (request (Samples.always (Received 200 "<html>Bad Gateway</html>")) Samples.client
         "GET" "/v1/tickets" None) Samples.logged_in
  = run (request (Samples.always (Received 502 "<html>Bad Gateway</html>")) Samples.client
           "GET" "/v1/tickets" None) Samples.logged_out
  ∧ run (request (Samples.always (Received 200 "<html>Bad Gateway</html>")) Samples.client
           "GET" "/v1/tickets" None) Samples.logged_in
    = Err (ParsingError SyntaxError).
Proof.
  pose proof (status_is_ignored
    (Samples.always (Received 200 "<html>Bad Gateway</html>"))
    (Samples.always (Received 502 "<html>Bad Gateway</html>"))
    Samples.client Samples.client "GET" "GET" "/v1/tickets" "/v1/tickets" None None
    Samples.logged_in Samples.logged_out) as H.
  edestruct H as [H1 H2];
    [split; vm_compute; reflexivity | split; vm_compute; reflexivity
    | discriminate | discriminate | discriminate | discriminate |].
  split; [exact H1 | apply H2; vm_compute; reflexivity].
Defined.

(** C7. A request that request() sends, through the DELETE helper too,
    carries the header Authorization: Bearer <token> exactly when the
    token of the configuration is not empty; with an empty token it has no
    Authorization header. *)
Theorem bearer_iff_token env c method endpoint body (m : M (result error Response))
    w req rt :
  m = request env c method endpoint body ∨ m = Delete env c endpoint →
  round_trip env m w req rt →
  (Header req !! "Authorization" = Some ["Bearer " +:+ token_of w]
   ↔ token_of w ≠ EmptyString)
  ∧ (token_of w = EmptyString → Header req !! "Authorization" = None).
Proof.
  intros Hm Hrt.
  assert (∃ method' body', m = request env c method' endpoint body') as (me & bo & ->).
  { destruct Hm as [-> | ->]; [by eauto|]. by exists "DELETE", None. }
  apply request_round_trip in Hrt as (_ & req0 & Hh & ->).
  unfold authorized. destruct (String.eqb_spec (token_of w) EmptyString) as [He|Hne]; simpl.
  - rewrite He, !lookup_insert_ne, Hh, lookup_empty by done.
    split; [split; [done | congruence] | done].
  - rewrite lookup_insert_eq. split; [done | congruence].
Qed.

Lemma bearer_iff_token_witness :
  (∃ req, calls (Delete (Samples.always (Received 401 EmptyString)) Samples.client
                   "/v1/cloud/servers/9") Samples.logged_out = [req]
          ∧ Header req !! "Authorization" = None)
  ∧ (∃ req, calls (Delete (Samples.always (Received 401 EmptyString)) Samples.client
                     "/v1/cloud/servers/9") Samples.logged_in = [req]
            ∧ Header req !! "Authorization" = Some ["Bearer t0ken"]).
Proof.
  split.
  - eexists. split; [vm_compute; reflexivity|].
    eapply (proj2 (bearer_iff_token (Samples.always (Received 401 EmptyString))
              Samples.client "DELETE" "/v1/cloud/servers/9" None _
              Samples.logged_out _ (Received 401 EmptyString) _ _)).
    reflexivity.
  - eexists. split; [vm_compute; reflexivity|].
    eapply (proj1 (bearer_iff_token (Samples.always (Received 401 EmptyString))
              Samples.client "DELETE" "/v1/cloud/servers/9" None _
              Samples.logged_in _ (Received 401 EmptyString) _ _)).
    discriminate.
  Unshelve.
  all: try (right; reflexivity).
  all: split; vm_compute; reflexivity.
Defined.

End ApiProps.
(** * The tolerant adapters *)

Module TypesProps.
Import Json Types.

Lemma to_any_object members raw :
  to_any (JObject members) = Ok raw → ∃ m, raw = AMap m.
Proof.
  simpl. intros H.
  match type of H with bind ?x _ = _ => destruct x end; simplify_eq/=; eauto.
Qed.

(** C5 (as amended). Decoding a NumericBool from true, 1, 1.0 or the string
    true gives true; from false, 0, the string false, null, the string
    garbage, or any JSON object that json.Unmarshal can store in an empty
    interface, it gives false; in every case without an error. An input
    that json.Unmarshal rejects makes the decoding return that error and
    leave the value as it was. *)
Theorem NumericBool_decodes (b : NumericBool) :
  NumericBool_UnmarshalJSON b "true" = (true, None)
  ∧ NumericBool_UnmarshalJSON b "1" = (true, None)
  ∧ NumericBool_UnmarshalJSON b "1.0" = (true, None)
  ∧ NumericBool_UnmarshalJSON b (js "'true'") = (true, None)
  ∧ NumericBool_UnmarshalJSON b "false" = (false, None)
  ∧ NumericBool_UnmarshalJSON b "0" = (false, None)
  ∧ NumericBool_UnmarshalJSON b (js "'false'") = (false, None)
  ∧ NumericBool_UnmarshalJSON b "null" = (false, None)
  ∧ NumericBool_UnmarshalJSON b (js "'garbage'") = (false, None)
  ∧ (∀ data members raw,
       parse data = Ok (JObject members) →
       to_any (JObject members) = Ok raw →
       NumericBool_UnmarshalJSON b data = (false, None))
  ∧ (∀ data err,
       Unmarshal_any data = Err err →
       NumericBool_UnmarshalJSON b data = (b, Some err)).
Proof.
  do 9 (split; [vm_compute; reflexivity|]). split.
  - intros data members raw Hp Ha.
    assert (Unmarshal_any data = Ok raw) as Hu
      by (unfold Unmarshal_any; rewrite Hp; exact Ha).
    unfold NumericBool_UnmarshalJSON. rewrite Hu.
    by destruct (to_any_object members raw Ha) as [m ->].
  - intros data err Hu. unfold NumericBool_UnmarshalJSON. by rewrite Hu.
Qed.

(** C5, as stated, fails: an object is valid JSON whatever the size of the
    numbers in it, and one that holds a number beyond the float64 range
    makes the decoding return an error. *)
Lemma NumericBool_object_error :
  parse (js "{'a':1e999}") = Ok (JObject [("a", "1e999", JNumber "1e999")])
  ∧ NumericBool_UnmarshalJSON true (js "{'a':1e999}") = (true, Some UnmarshalTypeError).
Proof. split; vm_compute; reflexivity. Qed.

Lemma NumericBool_decodes_witness :
  NumericBool_UnmarshalJSON true (js "{'enabled': [1, 2], 'x': {}}") = (false, None).
Proof.
  destruct (NumericBool_decodes true) as (_ & _ & _ & _ & _ & _ & _ & _ & _ & H & _).
  eapply H; [vm_compute; reflexivity|]. vm_compute; reflexivity.
Defined.

(** C6. Decoding a FlexibleString from the string abc gives abc, from the
    array of abc and def gives abc, from the empty array gives the empty
    string and from null gives the empty string, without an error. *)
Theorem FlexibleString_decodes (f : FlexibleString) :
  FlexibleString_UnmarshalJSON f (js "'abc'") = ("abc", None)
  ∧ FlexibleString_UnmarshalJSON f (js "['abc','def']") = ("abc", None)
  ∧ FlexibleString_UnmarshalJSON f "[]" = (EmptyString, None)
  ∧ FlexibleString_UnmarshalJSON f "null" = (EmptyString, None).
Proof. repeat split; vm_compute; reflexivity. Qed.

End TypesProps.
(** * Reasoning about computations of the process *)

Module Hoare.
Import Sys Notions.




Lemma triple_weaken {A} (P P' : World → Prop) (m : M A) (Q Q' : A → World → Prop) :
  triple P' m Q' → (∀ w, P w → P' w) → (∀ a w, Q' a w → Q a w) → triple P m Q.
Proof. intros H HP HQ w Hw. apply HQ, H, HP, Hw. Qed.

Lemma triple_get (P : World → Prop) : triple P get (fun a w => a = w ∧ P w).
Proof. by intros w Hw. Qed.


End Hoare.

(** * Login *)

Module AuthProps.
Import Sys Json Api Notions ApiFacts Hoare Auth.






End AuthProps.
(** * Rate limiting *)

Module CdnProps.
Import Sys Json Api Notions ApiFacts Hoare AuthProps Cdn.













(** The bytes on the wire in the sample run. *)
Example disable_sample_body :
  map Body (calls (RateLimitDisable Samples.ratelimit_server 7) Samples.logged_in)
  = [None;
     Some (js ("{'block_time':60,'countries':null,'ips':[],'methods':['GET'],"
               +:+ "'mode':false,'request_count':100}"))].
Proof. vm_compute; reflexivity. Qed.
End CdnProps.
